(** * Verification of the jsonwebtoken-promisified and FontLoader declarations

    The repository holds two ambient declaration files:
    - [types/jsonwebtoken-promisified/index.d.ts]: the token codec surface
      ([sign], [signAsync], [verify], [verifyAsync], [decode], three error
      classes and the option interfaces);
    - [types/three/examples/jsm/loaders/FontLoader.d.ts]: [FontLoader] and
      [Font].

    The definitions come first.
    - [Decl]: the declarations themselves as data (types, overloads, classes),
      transcribed from the two files.
    - [Jwt]: the value types the declarations describe, as Rocq types, and a
      model of the codec operations.  The operations have no body in the
      repository; each such definition is marked [Modelled from the spec].
    - [Fonts]: the same for the font loader.
    - [Reference]: one platform for the codec, and sample inputs.
    The properties follow: of the declarations, of the codec on every
    platform and on the reference one, of the font loader. *)

From Stdlib Require Import ZArith Lia Bool Ascii.
From stdpp Require Import base option countable strings list.

Local Open Scope string_scope.
Local Open Scope list_scope.

(* ===================================================================== *)
(** * The declarations as data                                            *)
(* ===================================================================== *)

Module Decl.

(** The fragment of the TypeScript type language the two files use. *)
#[local] Set Warnings "-register-all".
Inductive TsType : Type :=
| TString
| TNumber
| TBoolean
| TVoid
| TNull
| TAny
| TObject
| TRef (name : string)
| TArray (elem : TsType)
| TPromise (result : TsType)
| TGeneric (name : string) (arg : TsType)
| TIndexSignature (value : TsType)
| TObjectLiteral (members : list (string * TsType))
| TUnion (members : list TsType)
| TFunction (params : list (string * TsType)) (result : TsType).

#[local] Set Warnings "register-all".

Record Param : Type := mkParam {
  p_name : string;
  p_type : TsType;
  p_optional : bool
}.

Record FunctionDecl : Type := mkFunction {
  f_name : string;
  f_params : list Param;
  f_result : TsType
}.

Record ClassDecl : Type := mkClass {
  c_name : string;
  c_extends : option string;
  c_fields : list (string * TsType);
  c_constructor : list Param;
  c_methods : list FunctionDecl
}.

Definition req (n : string) (t : TsType) : Param := mkParam n t false.
Definition opt (n : string) (t : TsType) : Param := mkParam n t true.

(** ** index.d.ts *)

(** [export type VerifyCallback], [SignCallback] and [Secret]. *)
Definition type_aliases : list (string * TsType) :=
  [ ("VerifyCallback",
      TFunction
        [ ("err", TUnion [TRef "JsonWebTokenError"; TRef "NotBeforeError";
                          TRef "TokenExpiredError"]);
          ("decoded", TUnion [TObject; TString]) ]
        TVoid);
    ("SignCallback",
      TFunction [("err", TRef "Error"); ("encoded", TString)] TVoid);
    ("Secret",
      TUnion [ TString; TRef "Buffer";
               TObjectLiteral [("key", TString); ("passphrase", TString)] ]) ].

Definition JsonWebTokenError : ClassDecl :=
  mkClass "JsonWebTokenError" (Some "Error")
    [("inner", TRef "Error")]
    [req "message" TString; opt "error" (TRef "Error")]
    [].

Definition TokenExpiredError : ClassDecl :=
  mkClass "TokenExpiredError" (Some "JsonWebTokenError")
    [("expiredAt", TNumber)]
    [req "message" TString; req "expiredAt" TNumber]
    [].

Definition NotBeforeError : ClassDecl :=
  mkClass "NotBeforeError" (Some "JsonWebTokenError")
    [("date", TRef "Date")]
    [req "message" TString; req "date" (TRef "Date")]
    [].

Definition payload_type : TsType := TUnion [TString; TRef "Buffer"; TObject].
Definition public_key_type : TsType := TUnion [TString; TRef "Buffer"].
Definition decoded_type : TsType := TUnion [TObject; TString].

(** The three overloads of [sign], in declaration order, and [signAsync]. *)
Definition sign_sync : FunctionDecl :=
  mkFunction "sign"
    [ req "payload" payload_type; req "secretOrPrivateKey" (TRef "Secret");
      opt "options" (TRef "SignOptions") ]
    TString.

Definition sign_callback : FunctionDecl :=
  mkFunction "sign"
    [ req "payload" payload_type; req "secretOrPrivateKey" (TRef "Secret");
      req "callback" (TRef "SignCallback") ]
    TVoid.

Definition sign_options_callback : FunctionDecl :=
  mkFunction "sign"
    [ req "payload" payload_type; req "secretOrPrivateKey" (TRef "Secret");
      req "options" (TRef "SignOptions"); req "callback" (TRef "SignCallback") ]
    TVoid.

Definition signAsync : FunctionDecl :=
  mkFunction "signAsync"
    [ req "payload" payload_type; req "secretOrPrivateKey" (TRef "Secret");
      opt "options" (TRef "SignOptions") ]
    (TPromise TString).

(** The three overloads of [verify], in declaration order, and [verifyAsync]. *)
Definition verify_sync : FunctionDecl :=
  mkFunction "verify"
    [ req "token" TString; req "secretOrPublicKey" public_key_type;
      opt "options" (TRef "VerifyOptions") ]
    decoded_type.

Definition verify_callback : FunctionDecl :=
  mkFunction "verify"
    [ req "token" TString; req "secretOrPublicKey" public_key_type;
      opt "callback" (TRef "VerifyCallback") ]
    TVoid.

Definition verify_options_callback : FunctionDecl :=
  mkFunction "verify"
    [ req "token" TString; req "secretOrPublicKey" public_key_type;
      req "options" (TRef "VerifyOptions"); opt "callback" (TRef "VerifyCallback") ]
    TVoid.

Definition verifyAsync : FunctionDecl :=
  mkFunction "verifyAsync"
    [ req "token" TString; req "secretOrPublicKey" public_key_type;
      opt "options" (TRef "VerifyOptions") ]
    (TPromise decoded_type).

Definition decode : FunctionDecl :=
  mkFunction "decode"
    [ req "token" TString; opt "options" (TRef "DecodeOptions") ]
    (TUnion [TNull; TIndexSignature TAny; TString]).

Definition jwt_classes : list ClassDecl :=
  [JsonWebTokenError; TokenExpiredError; NotBeforeError].

Definition jwt_functions : list FunctionDecl :=
  [ sign_sync; sign_callback; sign_options_callback; signAsync;
    verify_sync; verify_callback; verify_options_callback; verifyAsync;
    decode ].

(** ** FontLoader.d.ts *)

Definition FontLoader : ClassDecl :=
  mkClass "FontLoader" (Some "Loader<Font>")
    []
    [opt "manager" (TRef "LoadingManager")]
    [mkFunction "parse" [req "json" TAny] (TRef "Font")].

Definition Font : ClassDecl :=
  mkClass "Font" None
    [("type", TString); ("data", TString)]
    [req "jsondata" TAny]
    [mkFunction "generateShapes"
       [req "text" TString; req "size" TNumber] (TArray (TRef "Shape"))].

(** ** Reading the tables *)

Fixpoint assoc {A : Type} (k : string) (l : list (string * A)) : option A :=
  match l with
  | [] => None
  | (k', v) :: rest => if String.eqb k k' then Some v else assoc k rest
  end.

(** A reference to an alias stands for the aliased type. *)
Definition resolve (t : TsType) : TsType :=
  match t with
  | TRef n => match assoc n type_aliases with Some t' => t' | None => t end
  | _ => t
  end.

(** The alternatives a value of type [t] may take: the members of a union,
    or the type itself. *)
Definition alternatives (t : TsType) : list TsType :=
  match resolve t with
  | TUnion ms => ms
  | t' => [t']
  end.

Definition is_object_literal (t : TsType) : bool :=
  match t with TObjectLiteral _ => true | _ => false end.

(** The passphrase-protected key form of [Secret]. *)
Definition passphrase_key_type : TsType :=
  TObjectLiteral [("key", TString); ("passphrase", TString)].

Definition param_named (n : string) (f : FunctionDecl) : option Param :=
  List.find (fun p => String.eqb (p_name p) n) (f_params f).

(** The alternatives of the parameter of [f] called [parameter]. *)
Definition key_alternatives (parameter : string) (f : FunctionDecl)
  : option (list TsType) :=
  (fun p => alternatives (p_type p)) <$> param_named parameter f.

Definition overloads (n : string) (fs : list FunctionDecl) : list FunctionDecl :=
  List.filter (fun f => String.eqb (f_name f) n) fs.

Definition find_class (n : string) (cs : list ClassDecl) : option ClassDecl :=
  List.find (fun c => String.eqb (c_name c) n) cs.

(** [extends_chain fuel cs n]: the classes [n] inherits from, nearest first,
    following the [extends] clauses. *)
Fixpoint extends_chain (fuel : nat) (cs : list ClassDecl) (n : string)
  : list string :=
  match fuel with
  | O => []
  | S fuel' =>
      match find_class n cs with
      | Some c =>
          match c_extends c with
          | Some super => super :: extends_chain fuel' cs super
          | None => []
          end
      | None => []
      end
  end.

Definition ancestors (cs : list ClassDecl) (n : string) : list string :=
  extends_chain (S (List.length cs)) cs n.

Definition inherits_from (cs : list ClassDecl) (super sub : string) : bool :=
  List.existsb (String.eqb super) (ancestors cs sub).

(** The declared classes that specialise [super]. *)
Definition specializations (cs : list ClassDecl) (super : string) : list string :=
  List.map c_name (List.filter (fun c => inherits_from cs super (c_name c)) cs).

(** Own and inherited fields of a class, own fields first. *)
Definition all_fields (cs : list ClassDecl) (n : string) : list (string * TsType) :=
  List.flat_map
    (fun m => match find_class m cs with Some c => c_fields c | None => [] end)
    (n :: ancestors cs n).

End Decl.

(* ===================================================================== *)
(** * The token codec: values                                             *)
(* ===================================================================== *)

Module Jwt.

(** [Buffer] (from the node typings the file references) is a byte array.
    [number] is kept to the integers: every number the codec handles is a
    count of seconds or an instant on the clock. *)
Definition Buffer : Type := list Byte.byte.
Definition number : Type := Z.
Definition Date : Type := Z.

#[global] Instance byte_eq_dec : EqDecision Byte.byte := Byte.byte_eq_dec.

(** [object] and [{ [key: string]: any }]: a mapping from names to values of
    any type.  The value type is a parameter of the whole model. *)
Definition Object (Any : Type) : Type := list (string * Any).

(** [export type Secret = string | Buffer | { key: string; passphrase: string }] *)
Inductive Secret : Type :=
| SecretString (s : string)
| SecretBuffer (b : Buffer)
| SecretKey (key passphrase : string).

(** [secretOrPublicKey: string | Buffer] *)
Inductive SecretOrPublicKey : Type :=
| KeyString (s : string)
| KeyBuffer (b : Buffer).

(** Every [string | Buffer] is a [Secret]: the union is widened. *)
Definition as_secret (k : SecretOrPublicKey) : Secret :=
  match k with
  | KeyString s => SecretString s
  | KeyBuffer b => SecretBuffer b
  end.

Definition is_passphrase_key (s : Secret) : bool :=
  match s with SecretKey _ _ => true | _ => false end.

(** [payload: string | Buffer | object] *)
Inductive Payload (Any : Type) : Type :=
| PayloadString (s : string)
| PayloadBuffer (b : Buffer)
| PayloadObject (o : Object Any).
Arguments PayloadString {Any} s.
Arguments PayloadBuffer {Any} b.
Arguments PayloadObject {Any} o.

(** [string | number] and [string | string[]] *)
Inductive StringOrNumber : Type :=
| AsString (s : string)
| AsNumber (n : number).

Inductive StringOrStrings : Type :=
| OneString (s : string)
| ManyStrings (l : list string).

Definition strings_of (v : StringOrStrings) : list string :=
  match v with
  | OneString s => [s]
  | ManyStrings l => l
  end.

(** [export interface SignOptions]; every member is optional. *)
Module SignOptions.
Record t (Any : Type) : Type := make {
  algorithm : option string;
  keyid : option string;
  expiresIn : option StringOrNumber;
  notBefore : option StringOrNumber;
  audience : option StringOrStrings;
  subject : option string;
  issuer : option string;
  jwtid : option string;
  noTimestamp : option bool;
  header : option (Object Any);
  encoding : option string
}.
Arguments make {Any}.
Arguments algorithm {Any} t.
Arguments keyid {Any} t.
Arguments expiresIn {Any} t.
Arguments notBefore {Any} t.
Arguments audience {Any} t.
Arguments subject {Any} t.
Arguments issuer {Any} t.
Arguments jwtid {Any} t.
Arguments noTimestamp {Any} t.
Arguments header {Any} t.
Arguments encoding {Any} t.

(** The options object [{}]. *)
Definition empty {Any : Type} : t Any :=
  make None None None None None None None None None None None.
End SignOptions.

(** [export interface VerifyOptions] *)
Module VerifyOptions.
Record t : Type := make {
  algorithms : option (list string);
  audience : option StringOrStrings;
  clockTimestamp : option number;
  clockTolerance : option number;
  issuer : option StringOrStrings;
  ignoreExpiration : option bool;
  ignoreNotBefore : option bool;
  jwtid : option string;
  subject : option string;
  maxAge : option string
}.

Definition empty : t :=
  make None None None None None None None None None None.
End VerifyOptions.

(** [export interface DecodeOptions] *)
Module DecodeOptions.
Record t : Type := make {
  complete : option bool;
  json : option bool
}.
End DecodeOptions.

(** ** The error classes

    A class that [extends] another holds the parent's part as its first
    field; the projection onto that field is the upcast. *)

(** The built-in [Error]. *)
Record Error : Type := new_Error { message : string }.

(** [class JsonWebTokenError extends Error] *)
Record JsonWebTokenError : Type := mkJsonWebTokenError {
  JsonWebTokenError_super : Error;
  inner : option Error
}.

(** [constructor(message: string, error?: Error)] *)
Definition new_JsonWebTokenError (message : string) (error : option Error)
  : JsonWebTokenError :=
  mkJsonWebTokenError (new_Error message) error.

(** [class TokenExpiredError extends JsonWebTokenError] *)
Record TokenExpiredError : Type := mkTokenExpiredError {
  TokenExpiredError_super : JsonWebTokenError;
  expiredAt : number
}.

(** [constructor(message: string, expiredAt: number)] *)
Definition new_TokenExpiredError (message : string) (expiredAt : number)
  : TokenExpiredError :=
  mkTokenExpiredError (new_JsonWebTokenError message None) expiredAt.

(** [class NotBeforeError extends JsonWebTokenError] *)
Record NotBeforeError : Type := mkNotBeforeError {
  NotBeforeError_super : JsonWebTokenError;
  date : Date
}.

(** [constructor(message: string, date: Date)] *)
Definition new_NotBeforeError (message : string) (date : Date)
  : NotBeforeError :=
  mkNotBeforeError (new_JsonWebTokenError message None) date.

(** [err: JsonWebTokenError | NotBeforeError | TokenExpiredError], the error
    type of [VerifyCallback]. *)
Inductive VerifyError : Type :=
| IsJsonWebTokenError (e : JsonWebTokenError)
| IsNotBeforeError (e : NotBeforeError)
| IsTokenExpiredError (e : TokenExpiredError).

(** The class an error value was constructed from. *)
Definition class_of (e : VerifyError) : string :=
  match e with
  | IsJsonWebTokenError _ => "JsonWebTokenError"
  | IsNotBeforeError _ => "NotBeforeError"
  | IsTokenExpiredError _ => "TokenExpiredError"
  end.

(** [e instanceof C], read off the [extends] clauses; above them is the
    built-in [Error], which is an [Object] like every class. *)
Definition instanceof (e : VerifyError) (C : string) : bool :=
  String.eqb (class_of e) C
  || Decl.inherits_from Decl.jwt_classes C (class_of e)
  || String.eqb C "Object".

(** The upcast to the base class. *)
Definition as_JsonWebTokenError (e : VerifyError) : JsonWebTokenError :=
  match e with
  | IsJsonWebTokenError b => b
  | IsNotBeforeError n => NotBeforeError_super n
  | IsTokenExpiredError x => TokenExpiredError_super x
  end.

(** A synchronous call either returns a value or throws. *)
Inductive Completion (E A : Type) : Type :=
| Returned (a : A)
| Thrown (e : E).
Arguments Returned {E A} a.
Arguments Thrown {E A} e.

(* ===================================================================== *)
(** * The token codec: operations                                         *)
(* ===================================================================== *)

Local Open Scope Z_scope.

(** ** Algorithms

    The ten values listed in the doc comment of [SignOptions.algorithm]. *)
Inductive Hash : Type := SHA256 | SHA384 | SHA512.
Inductive Family : Type := RSASSA | ECDSA.
Inductive Algorithm : Type :=
| HMAC (h : Hash)
| Asymmetric (f : Family) (h : Hash)
| NoSignature.

Definition algorithm_names : list (string * Algorithm) :=
  [ ("HS256", HMAC SHA256); ("HS384", HMAC SHA384); ("HS512", HMAC SHA512);
    ("RS256", Asymmetric RSASSA SHA256); ("RS384", Asymmetric RSASSA SHA384);
    ("RS512", Asymmetric RSASSA SHA512);
    ("ES256", Asymmetric ECDSA SHA256); ("ES384", Asymmetric ECDSA SHA384);
    ("ES512", Asymmetric ECDSA SHA512);
    ("none", NoSignature) ].

Definition algorithm_of_name (n : string) : option Algorithm :=
  Decl.assoc n algorithm_names.

(** [HS256 ... (default)] *)
Definition default_algorithm : string := "HS256".

Definition is_symmetric (n : string) : bool :=
  match algorithm_of_name n with
  | Some (HMAC _) => true
  | _ => false
  end.

(** ** Tokens *)

(** Modelled from the spec: the token, which the declarations give only as
    [string].  The spec calls it "an opaque signed string artifact; its
    decoded form is either a mapping of claims or a raw string payload", and
    names what signing records in it: the algorithm, the key identifier and
    the custom header fields; the expiration and not-before instants, the
    audience, subject, issuer and token identifier, and the issue timestamp
    unless suppressed. *)
Record Header (Any : Type) : Type := mkHeader {
  alg : string;
  kid : option string;
  fields : option (Object Any)
}.
Arguments mkHeader {Any}.
Arguments alg {Any} h.
Arguments kid {Any} h.
Arguments fields {Any} h.

Record Registered : Type := mkRegistered {
  iat : option number;
  exp : option number;
  nbf : option number;
  aud : option StringOrStrings;
  iss : option string;
  sub : option string;
  jti : option string
}.

Inductive Content (Any : Type) : Type :=
| Raw (s : string)
| Claims (o : Object Any).
Arguments Raw {Any} s.
Arguments Claims {Any} o.

Record Body (Any : Type) : Type := mkBody {
  content : Content Any;
  registered : Registered
}.
Arguments mkBody {Any}.
Arguments content {Any} b.
Arguments registered {Any} b.

(** [signature] is [None] for a token with no signature (algorithm [none]:
    "No digital signature or MAC value included"). *)
Record Token (Any : Type) : Type := mkToken {
  header : Header Any;
  body : Body Any;
  signature : option Buffer
}.
Arguments mkToken {Any}.
Arguments header {Any} t.
Arguments body {Any} t.
Arguments signature {Any} t.

(** What a signature is computed over. *)
Definition signing_input {Any : Type} (t : Token Any) : Header Any * Body Any :=
  (header t, body t).

(** [object | string], the decoded form: the claims (the payload's own and
    the recorded ones) or the raw payload. *)
Inductive Decoded (Any : Type) : Type :=
| DecodedObject (claims : Object Any) (recorded : Registered)
| DecodedString (s : string).
Arguments DecodedObject {Any} claims recorded.
Arguments DecodedString {Any} s.

Definition decoded_of {Any : Type} (b : Body Any) : Decoded Any :=
  match content b with
  | Raw s => DecodedString s
  | Claims o => DecodedObject o (registered b)
  end.

(** What a payload is recovered as: an object as its claims, a string as
    itself, a buffer as its text. *)
Definition content_of {Any : Type} (p : Payload Any) : Content Any :=
  match p with
  | PayloadString s => Raw s
  | PayloadBuffer b => Raw (String.string_of_list_byte b)
  | PayloadObject o => Claims o
  end.


(** ** The platform *)

(** Modelled from the spec: the primitives behind the declared functions,
    none of which is in the repository.
    - [timespan]: the length in seconds of "a string describing a time span"
      (the zeit/ms format of the [expiresIn] and [notBefore] doc comments);
    - [hmac]: the keyed hash of the symmetric algorithms;
    - [private_sign], [public_check]: signing with a private key and checking
      with a public key, for the RSA and ECDSA algorithms; [private_sign]
      gives [None] when the key material is unusable;
    - [serialize], [parse]: the token's text form; parsing what was
      serialized gives the token back;
    - [not_before_first]: which of the two temporal checks [verify] makes
      first; the spec names both failures and gives them no order. *)
Class Platform (Any : Type) : Type := {
  timespan : string -> Z;
  not_before_first : bool;
  hmac : Hash -> Buffer -> Header Any * Body Any -> Buffer;
  private_sign : Family -> Hash -> Secret -> Header Any * Body Any -> option Buffer;
  public_check : Family -> Hash -> Buffer -> Header Any * Body Any -> Buffer -> bool;
  serialize : Token Any -> string;
  parse : string -> option (Token Any);
  parse_serialize : forall t : Token Any, parse (serialize t) = Some t
}.

Section Operations.
Context {Any : Type} {platform : Platform Any}.

(** ** sign *)

(** [expiresIn] and [notBefore]: "expressed in seconds or a string describing
    a time span". *)
Definition seconds (v : StringOrNumber) : Z :=
  match v with
  | AsNumber n => n
  | AsString s => timespan s
  end.

Definition algorithm_name (o : SignOptions.t Any) : string :=
  default default_algorithm (SignOptions.algorithm o).

Definition issue_header (o : SignOptions.t Any) : Header Any :=
  {| alg := algorithm_name o;
     kid := SignOptions.keyid o;
     fields := SignOptions.header o |}.

Definition issue_registered (now : Z) (o : SignOptions.t Any) : Registered :=
  {| iat := if default false (SignOptions.noTimestamp o) then None else Some now;
     exp := (fun v => now + seconds v) <$> SignOptions.expiresIn o;
     nbf := (fun v => now + seconds v) <$> SignOptions.notBefore o;
     aud := SignOptions.audience o;
     iss := SignOptions.issuer o;
     sub := SignOptions.subject o;
     jti := SignOptions.jwtid o |}.

Definition issue_body (now : Z) (payload : Payload Any) (o : SignOptions.t Any)
  : Body Any :=
  {| content := content_of payload; registered := issue_registered now o |}.

(** The bytes of a shared symmetric key, "text or raw bytes". *)
Definition key_bytes (k : SecretOrPublicKey) : Buffer :=
  match k with
  | KeyString s => String.list_byte_of_string s
  | KeyBuffer b => b
  end.

Definition shared_key (s : Secret) : option Buffer :=
  match s with
  | SecretString s => Some (String.list_byte_of_string s)
  | SecretBuffer b => Some b
  | SecretKey _ _ => None
  end.

(** The signature for an algorithm, or [None] when "the key material is
    incompatible with the requested algorithm". *)
Definition make_signature (a : Algorithm) (secret : Secret)
    (input : Header Any * Body Any) : option (option Buffer) :=
  match a with
  | HMAC h => (fun k => Some (hmac h k input)) <$> shared_key secret
  | Asymmetric f h => Some <$> private_sign f h secret input
  | NoSignature => Some None
  end.

(** Modelled from the spec: [sign(payload, secretOrPrivateKey, options?)],
    declared without a body.  "sign(payload, secret, options) -> token
    string.  Fails with a signing error when the key material is incompatible
    with the requested algorithm."  [now] is the clock at the call. *)
Definition sign (now : Z) (payload : Payload Any) (secretOrPrivateKey : Secret)
    (options : option (SignOptions.t Any)) : Completion Error string :=
  let o := default SignOptions.empty options in
  let h := issue_header o in
  let b := issue_body now payload o in
  match algorithm_of_name (alg h) with
  | None => Thrown (new_Error "unknown algorithm")
  | Some a =>
      match make_signature a secretOrPrivateKey (h, b) with
      | None => Thrown (new_Error "key material incompatible with the algorithm")
      | Some s => Returned (serialize (mkToken h b s))
      end
  end.

(** ** verify *)

Definition reject (message : string) : option VerifyError :=
  Some (IsJsonWebTokenError (new_JsonWebTokenError message None)).

(** "acceptable algorithms": every algorithm when the option is absent. *)
Definition accepts (o : VerifyOptions.t) (name : string) : bool :=
  match VerifyOptions.algorithms o with
  | Some accepted => existsb (String.eqb name) accepted
  | None => true
  end.

Definition check_algorithm (o : VerifyOptions.t) (t : Token Any)
  : option VerifyError :=
  if accepts o (alg (header t)) then None else reject "algorithm not accepted".

(** The signature matches the supplied key material.  A token without a
    signature, or with an unknown algorithm, matches no key. *)
Definition signature_matches (t : Token Any) (key : SecretOrPublicKey) : bool :=
  match algorithm_of_name (alg (header t)), signature t with
  | Some (HMAC h), Some s =>
      bool_decide (hmac h (key_bytes key) (signing_input t) = s)
  | Some (Asymmetric f h), Some s =>
      public_check f h (key_bytes key) (signing_input t) s
  | _, _ => false
  end.

Definition check_signature (key : SecretOrPublicKey) (t : Token Any)
  : option VerifyError :=
  if signature_matches t key then None else reject "invalid signature".

(** "expired" when current time exceeds issued expiration (unless bypassed).
    The current time is the clock at the call: neither the declaration nor
    the spec says what [clockTimestamp] and [clockTolerance] do, and they are
    given no effect. *)
Definition check_expiration (now : Z) (o : VerifyOptions.t) (t : Token Any)
  : option VerifyError :=
  match exp (registered (body t)) with
  | Some e =>
      if default false (VerifyOptions.ignoreExpiration o) then None
      else if e <? now
           then Some (IsTokenExpiredError (new_TokenExpiredError "token expired" e))
           else None
  | None => None
  end.

(** "not yet valid" when current time precedes the not-before claim (unless
    bypassed) *)
Definition check_not_before (now : Z) (o : VerifyOptions.t) (t : Token Any)
  : option VerifyError :=
  match nbf (registered (body t)) with
  | Some n =>
      if default false (VerifyOptions.ignoreNotBefore o) then None
      else if now <? n
           then Some (IsNotBeforeError (new_NotBeforeError "token not yet valid" n))
           else None
  | None => None
  end.

(** One of the expected values is among the actual ones. *)
Definition overlaps (actual expected : list string) : bool :=
  existsb (fun a => existsb (String.eqb a) expected) actual.

Definition check_audience (o : VerifyOptions.t) (t : Token Any)
  : option VerifyError :=
  match VerifyOptions.audience o with
  | Some expected =>
      match aud (registered (body t)) with
      | Some actual =>
          if overlaps (strings_of actual) (strings_of expected) then None
          else reject "audience mismatch"
      | None => reject "audience mismatch"
      end
  | None => None
  end.

Definition check_issuer (o : VerifyOptions.t) (t : Token Any)
  : option VerifyError :=
  match VerifyOptions.issuer o with
  | Some expected =>
      match iss (registered (body t)) with
      | Some actual =>
          if existsb (String.eqb actual) (strings_of expected) then None
          else reject "issuer mismatch"
      | None => reject "issuer mismatch"
      end
  | None => None
  end.

Definition check_equal (what : string) (expected actual : option string)
  : option VerifyError :=
  match expected with
  | Some e =>
      match actual with
      | Some a => if String.eqb a e then None else reject what
      | None => reject what
      end
  | None => None
  end.

Definition check_subject (o : VerifyOptions.t) (t : Token Any)
  : option VerifyError :=
  check_equal "subject mismatch" (VerifyOptions.subject o) (sub (registered (body t))).

Definition check_jwtid (o : VerifyOptions.t) (t : Token Any)
  : option VerifyError :=
  check_equal "token identifier mismatch" (VerifyOptions.jwtid o) (jti (registered (body t))).

(** The first check that fails, if any. *)
Fixpoint first_failure (checks : list (option VerifyError)) : option VerifyError :=
  match checks with
  | [] => None
  | Some e :: _ => Some e
  | None :: rest => first_failure rest
  end.

(** [maxAge]: "Max age of token", the "max-age bound": a time span the age
    of the token, counted from its issue timestamp, must not exceed.  A token
    older than the bound fails as expired, at the instant the bound ran out;
    one without an issue timestamp cannot be aged and is rejected. *)
Definition check_max_age (now : Z) (o : VerifyOptions.t) (t : Token Any)
  : option VerifyError :=
  match VerifyOptions.maxAge o with
  | Some span =>
      match iat (registered (body t)) with
      | Some issued =>
          if issued + timespan span <? now
          then Some (IsTokenExpiredError
                       (new_TokenExpiredError "max age exceeded"
                          (issued + timespan span)))
          else None
      | None => reject "issue timestamp required by the max-age bound"
      end
  | None => None
  end.

(** The two temporal checks, in the order of the platform. *)
Definition temporal_checks (now : Z) (o : VerifyOptions.t) (t : Token Any)
  : list (option VerifyError) :=
  if not_before_first
  then [check_not_before now o t; check_expiration now o t]
  else [check_expiration now o t; check_not_before now o t].

(** The checks on a parsed token.  The signature is judged before any claim
    (rejection of a bad signature is "regardless of claim content"); then
    come the temporal checks, then the expectations, whose mismatch gives
    the base error, then the max-age bound. *)
Definition checks (now : Z) (t : Token Any) (key : SecretOrPublicKey)
    (o : VerifyOptions.t) : list (option VerifyError) :=
  check_algorithm o t
  :: check_signature key t
  :: temporal_checks now o t
  ++ [ check_audience o t;
       check_issuer o t;
       check_subject o t;
       check_jwtid o t;
       check_max_age now o t ].

Definition verify_token (now : Z) (t : Token Any) (key : SecretOrPublicKey)
    (o : VerifyOptions.t) : Completion VerifyError (Decoded Any) :=
  match first_failure (checks now t key o) with
  | Some e => Thrown e
  | None => Returned (decoded_of (body t))
  end.

(** Modelled from the spec: [verify(token, secretOrPublicKey, options?)],
    declared without a body.  "verify(token, secret, options) -> decoded
    claims or raw payload.  Fails with 'expired' when current time exceeds
    issued expiration (unless bypassed), 'not yet valid' when current time
    precedes the not-before claim (unless bypassed), or the base signature
    error for any other validation failure (bad signature,
    audience/issuer/subject mismatch, malformed token)."  [now] is the clock
    at the call. *)
Definition verify (now : Z) (token : string) (secretOrPublicKey : SecretOrPublicKey)
    (options : option VerifyOptions.t) : Completion VerifyError (Decoded Any) :=
  match parse token with
  | None => Thrown (IsJsonWebTokenError (new_JsonWebTokenError "malformed token" None))
  | Some t =>
      verify_token now t secretOrPublicKey (default VerifyOptions.empty options)
  end.

(** ** Options of [verify] consistent with options of [sign] *)




End Operations.

End Jwt.

(* ===================================================================== *)
(** * The font loader                                                     *)
(* ===================================================================== *)

Module Fonts.

Local Open Scope Z_scope.

(** [number], kept to the integers: sizes, advances and coordinates. *)
Definition number : Type := Z.

Definition Point : Type := (number * number)%type.

(** Modelled from the spec: the glyph-outline data a font holds, which the
    declarations give only as [jsondata: any].  "Glyph outline: vector path
    data describing a character's visual shape"; each character's entry has
    its outline and its advance. *)
Record Glyph : Type := mkGlyph {
  advance : number;
  outline : list Point
}.

Definition GlyphData : Type := list (ascii * Glyph).

(** Modelled from the spec: [Shape], imported from the three.js core, which
    is not part of the repository.  "Shape: a vector outline produced from
    glyph data for a given text string and size." *)
Record Shape : Type := mkShape {
  points : list Point
}.

(** [export class Font]: "holds a type tag and raw glyph-outline data".  The
    declaration types [data] as [string] and the constructor argument it is
    taken from as [any]; the model keeps the glyph data itself. *)
Record Font : Type := mkFont {
  type : string;
  data : GlyphData
}.

(** [constructor(jsondata: any)], with [type] at its [@default 'Font']. *)
Definition new_Font (jsondata : GlyphData) : Font :=
  {| type := "Font"; data := jsondata |}.

Fixpoint lookup_glyph (d : GlyphData) (c : ascii) : option Glyph :=
  match d with
  | [] => None
  | (c', g) :: rest => if Ascii.eqb c c' then Some g else lookup_glyph rest c
  end.

(** Modelled from the spec: the missing-glyph policy, which "must be decided
    explicitly by an implementer": a character without an entry "should fall
    back to a defined default glyph or be skipped".  [fallback d c] is the
    default glyph, or [None] to skip the character. *)
Class MissingGlyphPolicy : Type :=
  fallback : GlyphData -> ascii -> option Glyph.

(** Skip every unmapped character. *)
Definition skip_missing : MissingGlyphPolicy := fun _ _ => None.

(** Draw one fixed glyph for every unmapped character. *)
Definition substitute (g : Glyph) : MissingGlyphPolicy := fun _ _ => Some g.

Section Shapes.
Context {policy : MissingGlyphPolicy}.

Definition glyph_for (d : GlyphData) (c : ascii) : option Glyph :=
  match lookup_glyph d c with
  | Some g => Some g
  | None => fallback d c
  end.

(** The outline scaled to [size] and moved right by [offset]. *)
Definition place (size offset : number) (g : Glyph) : Shape :=
  {| points := List.map (fun '(x, y) => (offset + size * x, size * y)) (outline g) |}.

(** The shapes of [text], the first one placed at [offset]. *)
Fixpoint shapes_from (d : GlyphData) (size offset : number) (text : string)
  : list Shape :=
  match text with
  | EmptyString => []
  | String c rest =>
      match glyph_for d c with
      | Some g =>
          place size offset g
          :: shapes_from d size (offset + size * advance g) rest
      | None => shapes_from d size offset rest
      end
  end.

(** Modelled from the spec: [Font.generateShapes(text, size)], declared
    without a body.  "for each character in text, looks up its outline in
    the font data, scales it to the requested size, and emits a shape
    positioned according to cumulative glyph advance.  Must preserve
    character order". *)
Definition generateShapes (font : Font) (text : string) (size : number)
  : list Shape :=
  shapes_from (data font) size 0 text.

End Shapes.

(** ** The claim's reading of the result, character by character *)

(** Every character of [text] has an entry in the glyph data. *)
Fixpoint all_mapped (d : GlyphData) (text : string) : bool :=
  match text with
  | EmptyString => true
  | String c rest =>
      match lookup_glyph d c with
      | Some _ => all_mapped d rest
      | None => false
      end
  end.

(** The sum of the advances of the first [i] characters of [text]. *)
Fixpoint advance_before (d : GlyphData) (text : string) (i : nat) : number :=
  match i, text with
  | S j, String c rest =>
      match lookup_glyph d c with
      | Some g => advance g + advance_before d rest j
      | None => advance_before d rest j
      end
  | _, _ => 0
  end.

(** The shape the claim describes for the character at index [i]: its own
    outline, scaled to [size], at [size] times the advance of what precedes. *)
Definition shape_of_character (d : GlyphData) (text : string) (size : number)
    (i : nat) : option Shape :=
  match String.get i text with
  | Some c =>
      match lookup_glyph d c with
      | Some g =>
          Some {| points :=
                    List.map (fun '(x, y) =>
                                (size * advance_before d text i + size * x, size * y))
                             (outline g) |}
      | None => None
      end
  | None => None
  end.

(** Sample glyph data: a triangle for [A], a flag for [B]. *)
Definition glyph_A : Glyph := mkGlyph 6 [(0, 0); (3, 8); (6, 0)].
Definition glyph_B : Glyph := mkGlyph 5 [(0, 0); (0, 8); (4, 6); (0, 4)].

Definition letters_AB : GlyphData := [("A"%char, glyph_A); ("B"%char, glyph_B)].
Definition letter_A : GlyphData := [("A"%char, glyph_A)].

End Fonts.

(* ===================================================================== *)
(** * A reference platform                                                *)
(* ===================================================================== *)

(** One platform, to run the model on and to show the class is inhabited.
    Its signature primitives are stand-ins with the right shape, not
    cryptographic constructions: a tag is the key followed by a digest of
    the signed input, and the public key of a private key [p] is [0 :: p].
    Its text form is the binary numeral of the token's code.  It checks the
    not-before instant before the expiration. *)
Module Reference.
Import Jwt.

#[global] Instance byte_countable : Countable Byte.byte :=
  inj_countable Byte.to_N Byte.of_N Byte.of_to_N.

#[global] Instance StringOrStrings_eq_dec : EqDecision StringOrStrings.
Proof. solve_decision. Defined.

#[global] Instance StringOrStrings_countable : Countable StringOrStrings :=
  inj_countable'
    (fun v => match v with OneString s => inl s | ManyStrings l => inr l end)
    (fun v => match v with inl s => OneString s | inr l => ManyStrings l end)
    (fun v => match v with OneString _ | ManyStrings _ => eq_refl end).

#[global] Instance Registered_eq_dec : EqDecision Registered.
Proof. solve_decision. Defined.

#[global] Instance Registered_countable : Countable Registered :=
  inj_countable'
    (fun r => (iat r, exp r, nbf r, aud r, iss r, sub r, jti r))
    (fun '(a, b, c, d, e, f, g) => mkRegistered a b c d e f g)
    (fun r => match r with mkRegistered _ _ _ _ _ _ _ => eq_refl end).

Section Codes.
Context {Any : Type} `{Countable Any}.

#[global] Instance Header_eq_dec : EqDecision (Header Any).
Proof. solve_decision. Defined.

#[global] Instance Header_countable : Countable (Header Any) :=
  inj_countable'
    (fun h => (alg h, kid h, fields h))
    (fun '(a, k, f) => mkHeader a k f)
    (fun h => match h with mkHeader _ _ _ => eq_refl end).

#[global] Instance Content_eq_dec : EqDecision (Content Any).
Proof. solve_decision. Defined.

#[global] Instance Content_countable : Countable (Content Any) :=
  inj_countable'
    (fun c => match c with Raw s => inl s | Claims o => inr o end)
    (fun c => match c with inl s => Raw s | inr o => Claims o end)
    (fun c => match c with Raw _ | Claims _ => eq_refl end).

#[global] Instance Body_eq_dec : EqDecision (Body Any).
Proof. solve_decision. Defined.

#[global] Instance Body_countable : Countable (Body Any) :=
  inj_countable'
    (fun b => (content b, registered b))
    (fun '(c, r) => mkBody c r)
    (fun b => match b with mkBody _ _ => eq_refl end).

#[global] Instance Token_eq_dec : EqDecision (Token Any).
Proof. solve_decision. Defined.

#[global] Instance Token_countable : Countable (Token Any) :=
  inj_countable'
    (fun t => (header t, body t, signature t))
    (fun '(h, b, s) => mkToken h b s)
    (fun t => match t with mkToken _ _ _ => eq_refl end).

End Codes.

(** Binary numerals, least significant digit first, without the leading one. *)
Fixpoint string_of_pos (p : positive) : string :=
  match p with
  | xH => EmptyString
  | xO q => String "0"%char (string_of_pos q)
  | xI q => String "1"%char (string_of_pos q)
  end.

Fixpoint pos_of_string (s : string) : option positive :=
  match s with
  | EmptyString => Some xH
  | String c rest =>
      if Ascii.eqb c "0"%char then xO <$> pos_of_string rest
      else if Ascii.eqb c "1"%char then xI <$> pos_of_string rest
      else None
  end.

(** Time spans: a decimal count followed by an optional unit
    ([s], [m], [h] or [d]; seconds when absent). *)
Definition digit (c : Ascii.ascii) : option Z :=
  let n := Z.of_nat (Ascii.nat_of_ascii c) in
  if (48 <=? n)%Z && (n <=? 57)%Z then Some (n - 48)%Z else None.

Definition unit_seconds (c : Ascii.ascii) : Z :=
  if Ascii.eqb c "m"%char then 60
  else if Ascii.eqb c "h"%char then 3600
  else if Ascii.eqb c "d"%char then 86400
  else 1.

Fixpoint read_span (acc : Z) (s : string) : Z :=
  match s with
  | EmptyString => acc
  | String c rest =>
      match digit c with
      | Some d => read_span (10 * acc + d) rest
      | None => if Ascii.eqb c " "%char then read_span acc rest
                else (acc * unit_seconds c)%Z
      end
  end.

Definition hash_tag (h : Hash) : Byte.byte :=
  match h with
  | SHA256 => Byte.x01
  | SHA384 => Byte.x02
  | SHA512 => Byte.x03
  end.

Definition digest {Any : Type} (h : Hash) (input : Header Any * Body Any) : Buffer :=
  hash_tag h
  :: String.list_byte_of_string (alg (fst input))
  ++ match content (snd input) with
     | Raw s => String.list_byte_of_string s
     | Claims o => flat_map (fun kv => String.list_byte_of_string (fst kv)) o
     end.

Definition private_bytes (s : Secret) : Buffer :=
  match s with
  | SecretString s => String.list_byte_of_string s
  | SecretBuffer b => b
  | SecretKey key _ => String.list_byte_of_string key
  end.

Definition public_of (private : Buffer) : Buffer := Byte.x00 :: private.

Definition reference_sign {Any : Type} (f : Family) (h : Hash) (s : Secret)
    (input : Header Any * Body Any) : option Buffer :=
  match private_bytes s with
  | [] => None
  | p => Some (p ++ digest h input)
  end.

Definition reference_check {Any : Type} (f : Family) (h : Hash) (public : Buffer)
    (input : Header Any * Body Any) (s : Buffer) : bool :=
  match public with
  | Byte.x00 :: p => bool_decide (s = p ++ digest h input)
  | _ => false
  end.

#[global] Program Instance platform {Any : Type} `{Countable Any} : Platform Any := {|
  timespan := read_span 0;
  not_before_first := true;
  hmac := fun h k input => k ++ digest h input;
  private_sign := reference_sign;
  public_check := reference_check;
  serialize := fun t => string_of_pos (countable.encode t);
  parse := fun s => pos_of_string s ≫= countable.decode
|}.
Next Obligation.
  intros Any ? ? t. cbn.
  assert (numeral : forall p, pos_of_string (string_of_pos p) = Some p).
  { induction p as [q IH | q IH |]; simpl; rewrite ?IH; reflexivity. }
  rewrite numeral. cbn. apply countable.decode_encode.
Qed.

(** Sample inputs, with integer claim values. *)
Definition session : Payload Z := PayloadObject [("user", 7%Z); ("admin", 0%Z)].

Definition shared : SecretOrPublicKey := KeyString "shared secret".
Definition another : SecretOrPublicKey := KeyString "another secret".

Definition private : Secret := SecretString "private key".
Definition public : SecretOrPublicKey :=
  KeyBuffer (public_of (String.list_byte_of_string "private key")).

(** [{ algorithm: 'HS256', expiresIn: 60, audience: 'app', issuer: 'auth' }] *)
Definition hs256_options : SignOptions.t Z :=
  SignOptions.make (Some "HS256") None (Some (AsNumber 60%Z)) None
    (Some (OneString "app")) None (Some "auth") None None None None.



(** [{ algorithm: 'RS256' }] *)
Definition rs256_options : SignOptions.t Z :=
  SignOptions.make (Some "RS256") None None None None None None None None None None.



End Reference.

(* ===================================================================== *)
(** * The rest of the declared surface                                    *)
(* ===================================================================== *)

(** The option interfaces, the imports of the font file, and how the
    declarations are read by a caller: which names they refer to and how
    many arguments each form takes. *)
Module Surface.
Import Decl.

(** A member [name?: type | undefined] of an interface: whether it is
    marked [?], its type without the trailing [undefined], and whether
    [undefined] is among its alternatives. *)
Record Member : Type := mkMember {
  m_name : string;
  m_optional : bool;
  m_type : TsType;
  m_undefined : bool
}.

Record InterfaceDecl : Type := mkInterface {
  i_name : string;
  i_members : list Member
}.

(** [name?: type | undefined] *)
Definition optional (n : string) (t : TsType) : Member := mkMember n true t true.

(** [export interface SignOptions] *)
Definition SignOptions : InterfaceDecl :=
  mkInterface "SignOptions"
    [ optional "algorithm" TString;
      optional "keyid" TString;
      optional "expiresIn" (TUnion [TString; TNumber]);
      optional "notBefore" (TUnion [TString; TNumber]);
      optional "audience" (TUnion [TString; TArray TString]);
      optional "subject" TString;
      optional "issuer" TString;
      optional "jwtid" TString;
      optional "noTimestamp" TBoolean;
      optional "header" TObject;
      optional "encoding" TString ].

(** [export interface VerifyOptions] *)
Definition VerifyOptions : InterfaceDecl :=
  mkInterface "VerifyOptions"
    [ optional "algorithms" (TArray TString);
      optional "audience" (TUnion [TString; TArray TString]);
      optional "clockTimestamp" TNumber;
      optional "clockTolerance" TNumber;
      optional "issuer" (TUnion [TString; TArray TString]);
      optional "ignoreExpiration" TBoolean;
      optional "ignoreNotBefore" TBoolean;
      optional "jwtid" TString;
      optional "subject" TString;
      optional "maxAge" TString ].

(** [export interface DecodeOptions] *)
Definition DecodeOptions : InterfaceDecl :=
  mkInterface "DecodeOptions"
    [ optional "complete" TBoolean;
      optional "json" TBoolean ].

Definition jwt_interfaces : list InterfaceDecl :=
  [SignOptions; VerifyOptions; DecodeOptions].

(** The members an object must have to satisfy the interface. *)
Definition required_members (i : InterfaceDecl) : list string :=
  List.map m_name (List.filter (fun m => negb (m_optional m)) (i_members i)).

Definition member_type (n : string) (i : InterfaceDecl) : option TsType :=
  m_type <$> List.find (fun m => String.eqb (m_name m) n) (i_members i).

Definition has_member (i : InterfaceDecl) (n : string) : bool :=
  List.existsb (fun m => String.eqb (m_name m) n) (i_members i).

(** The member names of [a] that [b] has too, in the order of [a]. *)
Definition shared_members (a b : InterfaceDecl) : list string :=
  List.filter (has_member b) (List.map m_name (i_members a)).

(** ** FontLoader.d.ts, continued *)

(** [import { Shape, Loader, LoadingManager } from '../../../src/Three.js'] *)
Definition font_imports : list string := ["Shape"; "Loader"; "LoadingManager"].

Definition font_classes : list ClassDecl := [FontLoader; Font].

(** [extends Loader<Font>], as a type. *)
Definition FontLoader_heritage : TsType := TGeneric "Loader" (TRef "Font").

(** ** Names a declaration refers to *)

Fixpoint type_refs (t : TsType) : list string :=
  match t with
  | TRef n => [n]
  | TArray e => type_refs e
  | TPromise r => "Promise" :: type_refs r
  | TGeneric n a => n :: type_refs a
  | TIndexSignature v => type_refs v
  | TObjectLiteral ms =>
      (fix members (l : list (string * TsType)) : list string :=
         match l with
         | [] => []
         | (_, m) :: rest => type_refs m ++ members rest
         end) ms
  | TUnion ms =>
      (fix members (l : list TsType) : list string :=
         match l with
         | [] => []
         | m :: rest => type_refs m ++ members rest
         end) ms
  | TFunction ps r =>
      (fix params (l : list (string * TsType)) : list string :=
         match l with
         | [] => []
         | (_, q) :: rest => type_refs q ++ params rest
         end) ps
      ++ type_refs r
  | _ => []
  end.

Definition params_refs (ps : list Param) : list string :=
  List.flat_map (fun q => type_refs (p_type q)) ps.

Definition function_refs (f : FunctionDecl) : list string :=
  params_refs (f_params f) ++ type_refs (f_result f).

(** What the body of a class refers to: fields, constructor, methods. *)
Definition class_body_refs (c : ClassDecl) : list string :=
  List.flat_map (fun fld => type_refs (snd fld)) (c_fields c)
  ++ params_refs (c_constructor c)
  ++ List.flat_map function_refs (c_methods c).

Definition heritage (c : ClassDecl) : list string :=
  match c_extends c with
  | Some super => [super]
  | None => []
  end.

Definition interface_refs (i : InterfaceDecl) : list string :=
  List.flat_map (fun m => type_refs (m_type m)) (i_members i).

(** Every name index.d.ts refers to. *)
Definition jwt_references : list string :=
  List.flat_map (fun c => heritage c ++ class_body_refs c) jwt_classes
  ++ List.flat_map interface_refs jwt_interfaces
  ++ List.flat_map (fun a => type_refs (snd a)) type_aliases
  ++ List.flat_map function_refs jwt_functions.

(** Every name index.d.ts declares. *)
Definition jwt_declared : list string :=
  List.map c_name jwt_classes
  ++ List.map i_name jwt_interfaces
  ++ List.map fst type_aliases.

(** The names in scope without a declaration: the built-in [Error], [Date]
    and [Promise], and [Buffer] through [/// <reference types="node" />]. *)
Definition jwt_ambient : list string := ["Error"; "Date"; "Promise"; "Buffer"].

(** Every name FontLoader.d.ts refers to. *)
Definition font_references : list string :=
  type_refs FontLoader_heritage
  ++ List.flat_map class_body_refs font_classes.

Definition font_declared : list string := List.map c_name font_classes.

Definition mentions (names : list string) (n : string) : bool :=
  List.existsb (String.eqb n) names.

(** ** Argument counts *)

(** [accepts_count ps n]: a call with [n] arguments fits the parameter list
    [ps]: each argument has a parameter, and the parameters left over are
    all optional. *)
Fixpoint accepts_count (ps : list Param) (n : nat) : bool :=
  match n, ps with
  | O, _ => List.forallb p_optional ps
  | S m, _ :: rest => accepts_count rest m
  | S _, [] => false
  end.

Definition required_count (ps : list Param) : nat :=
  List.length (List.filter (fun q => negb (p_optional q)) ps).

(** No required parameter follows an optional one. *)
Fixpoint optional_last (ps : list Param) : bool :=
  match ps with
  | [] => true
  | q :: rest =>
      if p_optional q then List.forallb p_optional rest else optional_last rest
  end.

(** Some form among [fs] fits a call with [n] arguments. *)
Definition callable_with (fs : list FunctionDecl) (n : nat) : bool :=
  List.existsb (fun f => accepts_count (f_params f) n) fs.

Definition class_parameter_lists (c : ClassDecl) : list (list Param) :=
  c_constructor c :: List.map f_params (c_methods c).

(** The parameter lists of every function, constructor and method of the
    two files. *)
Definition parameter_lists : list (list Param) :=
  List.map f_params jwt_functions
  ++ List.flat_map class_parameter_lists jwt_classes
  ++ List.flat_map class_parameter_lists font_classes.

Definition methods_named (n : string) (c : ClassDecl) : list FunctionDecl :=
  List.filter (fun f => String.eqb (f_name f) n) (c_methods c).

(** A parameter as a caller sees it: its name and type. *)
Definition p_sig (q : Param) : string * TsType := (p_name q, p_type q).

(** The parameters of [f] other than [callback]. *)
Definition without_callback (f : FunctionDecl) : list Param :=
  List.filter (fun q => negb (String.eqb (p_name q) "callback")) (f_params f).

(** ** Results *)

(** What a caller ends up holding: for a promise, what it resolves with. *)
Definition settled (t : TsType) : TsType :=
  match t with
  | TPromise r => r
  | _ => t
  end.

Definition result_alternatives (f : FunctionDecl) : list TsType :=
  alternatives (settled (f_result f)).

End Surface.

(* ===================================================================== *)
(** * Properties of the declarations                                      *)
(* ===================================================================== *)

Section Declarations.
Import Decl.

Lemma jwt_class_names :
  List.map c_name jwt_classes
  = ["JsonWebTokenError"; "TokenExpiredError"; "NotBeforeError"].
Proof. reflexivity. Qed.

(** The [extends] chains of the three classes. *)
Lemma ancestors_of_jwt_classes :
  ancestors jwt_classes "JsonWebTokenError" = ["Error"]
  /\ ancestors jwt_classes "TokenExpiredError" = ["JsonWebTokenError"; "Error"]
  /\ ancestors jwt_classes "NotBeforeError" = ["JsonWebTokenError"; "Error"].
Proof. repeat split. Qed.

Lemma instanceof_base (e : Jwt.VerifyError) :
  Jwt.instanceof e "JsonWebTokenError" = true.
Proof. destruct e; reflexivity. Qed.

Lemma instanceof_expired (e : Jwt.VerifyError) :
  Jwt.instanceof e "TokenExpiredError" = true
  <-> exists x, e = Jwt.IsTokenExpiredError x.
Proof.
  split.
  - destruct e as [b | n | x]; cbn; intros E; try discriminate E.
    exists x. reflexivity.
  - intros [x ->]. reflexivity.
Qed.

Lemma instanceof_not_before (e : Jwt.VerifyError) :
  Jwt.instanceof e "NotBeforeError" = true
  <-> exists n, e = Jwt.IsNotBeforeError n.
Proof.
  split.
  - destruct e as [b | n | x]; cbn; intros E; try discriminate E.
    exists n. reflexivity.
  - intros [n ->]. reflexivity.
Qed.

(** C6.  The error taxonomy: [JsonWebTokenError] is the base class, it
    extends [Error] and holds an inner cause ([inner: Error]); the declared
    classes that specialise it are exactly [TokenExpiredError], which adds
    the expiration instant ([expiredAt: number]), and [NotBeforeError], which
    adds the activation instant ([date: Date]).  Both inherit [inner]; every
    error value of the three classes is an instance of the base class, the
    constructors store the instants they are given, and a specialization
    seen as its base class is the base error with the same message. *)
Theorem error_taxonomy :
  find_class "JsonWebTokenError" jwt_classes = Some JsonWebTokenError
  /\ c_extends JsonWebTokenError = Some "Error"
  /\ c_fields JsonWebTokenError = [("inner", TRef "Error")]
  /\ specializations jwt_classes "JsonWebTokenError"
     = ["TokenExpiredError"; "NotBeforeError"]
  /\ all_fields jwt_classes "TokenExpiredError"
     = [("expiredAt", TNumber); ("inner", TRef "Error")]
  /\ all_fields jwt_classes "NotBeforeError"
     = [("date", TRef "Date"); ("inner", TRef "Error")]
  /\ (forall e : Jwt.VerifyError, Jwt.instanceof e "JsonWebTokenError" = true)
  /\ (forall e : Jwt.VerifyError,
        (exists b, e = Jwt.IsJsonWebTokenError b)
        \/ (exists x, e = Jwt.IsTokenExpiredError x)
        \/ (exists n, e = Jwt.IsNotBeforeError n))
  /\ (forall message cause,
        Jwt.inner (Jwt.new_JsonWebTokenError message cause) = cause)
  /\ (forall message instant,
        Jwt.expiredAt (Jwt.new_TokenExpiredError message instant) = instant)
  /\ (forall message instant,
        Jwt.date (Jwt.new_NotBeforeError message instant) = instant)
  /\ (forall message instant,
        Jwt.as_JsonWebTokenError
          (Jwt.IsTokenExpiredError (Jwt.new_TokenExpiredError message instant))
        = Jwt.new_JsonWebTokenError message None)
  /\ (forall message instant,
        Jwt.as_JsonWebTokenError
          (Jwt.IsNotBeforeError (Jwt.new_NotBeforeError message instant))
        = Jwt.new_JsonWebTokenError message None).
Proof.
  repeat (split; [reflexivity |]).
  split; [exact instanceof_base |].
  split.
  - intros [b | n | x]; eauto.
  - repeat split.
Qed.

Lemma verify_forms :
  overloads "verify" jwt_functions
  = [verify_sync; verify_callback; verify_options_callback]
  /\ overloads "verifyAsync" jwt_functions = [verifyAsync].
Proof. split; reflexivity. Qed.

Lemma sign_forms :
  overloads "sign" jwt_functions
  = [sign_sync; sign_callback; sign_options_callback]
  /\ overloads "signAsync" jwt_functions = [signAsync].
Proof. split; reflexivity. Qed.

(** What each form hands over on success: a [string] for the forms of
    [sign], an [object | string] for the forms of [verify]; returned by the
    synchronous form, passed as the second argument of the callback, and
    resolved by the promise. *)
Lemma declared_results :
  f_result sign_sync = TString
  /\ f_result signAsync = TPromise TString
  /\ assoc "SignCallback" type_aliases
     = Some (TFunction [("err", TRef "Error"); ("encoded", TString)] TVoid)
  /\ f_result verify_sync = TUnion [TObject; TString]
  /\ f_result verifyAsync = TPromise (TUnion [TObject; TString])
  /\ assoc "VerifyCallback" type_aliases
     = Some (TFunction
               [ ("err", TUnion [TRef "JsonWebTokenError"; TRef "NotBeforeError";
                                 TRef "TokenExpiredError"]);
                 ("decoded", TUnion [TObject; TString]) ]
               TVoid).
Proof. repeat split. Qed.

(** [FontLoader.parse] takes [any] and is typed to give a [Font];
    [Font.generateShapes] takes a text and a size and gives shapes. *)
Lemma declared_font_methods :
  c_methods FontLoader = [mkFunction "parse" [req "json" TAny] (TRef "Font")]
  /\ c_methods Font
     = [mkFunction "generateShapes"
          [req "text" TString; req "size" TNumber] (TArray (TRef "Shape"))].
Proof. split; reflexivity. Qed.

Lemma passphrase_key_not_public :
  ~ In passphrase_key_type [TString; TRef "Buffer"].
Proof. intros [E | [E | []]]; discriminate E. Qed.

(** C10.  [Secret], the key type of every form of [sign] and of [signAsync],
    has the passphrase-protected form [{ key, passphrase }] among its
    alternatives; the key type of every form of [verify] and of
    [verifyAsync] is [string | Buffer], which has not.  On values: a key
    given to verification, seen as a [Secret], is never the passphrase form,
    so no passphrase-protected key is the image of a verification key. *)
Theorem verify_excludes_passphrase_key :
  Forall (fun f => exists alts,
            key_alternatives "secretOrPrivateKey" f = Some alts
            /\ In passphrase_key_type alts)
         (overloads "sign" jwt_functions ++ overloads "signAsync" jwt_functions)
  /\ Forall (fun f => exists alts,
               key_alternatives "secretOrPublicKey" f = Some alts
               /\ alts = [TString; TRef "Buffer"]
               /\ ~ In passphrase_key_type alts)
            (overloads "verify" jwt_functions
             ++ overloads "verifyAsync" jwt_functions)
  /\ (forall k : Jwt.SecretOrPublicKey, Jwt.is_passphrase_key (Jwt.as_secret k) = false)
  /\ (forall key passphrase (k : Jwt.SecretOrPublicKey),
        Jwt.as_secret k <> Jwt.SecretKey key passphrase).
Proof.
  split; [| split; [| split]].
  - repeat constructor; eexists; (split; [reflexivity |]);
      cbn; right; right; left; reflexivity.
  - repeat constructor; eexists; (split; [reflexivity |]);
      (split; [reflexivity | exact passphrase_key_not_public]).
  - intros [s | b]; reflexivity.
  - intros key passphrase [s | b]; discriminate.
Qed.

End Declarations.

(* ===================================================================== *)
(** * Properties of the token codec                                       *)
(* ===================================================================== *)

Section Codec.
Import Jwt.
Context {Any : Type} {platform : Platform Any}.

Local Open Scope Z_scope.

(** Verifying a serialized token is checking the token. *)
Lemma verify_serialize (now : Z) (t : Token Any) (K : SecretOrPublicKey)
    (options : option VerifyOptions.t) :
  verify now (serialize t) K options
  = verify_token now t K (default VerifyOptions.empty options).
Proof. unfold verify. rewrite parse_serialize. reflexivity. Qed.

Lemma symmetric_algorithm (n : string) :
  is_symmetric n = true -> exists h, algorithm_of_name n = Some (HMAC h).
Proof.
  unfold is_symmetric. destruct (algorithm_of_name n) as [[h | f h |] |];
    intros E; try discriminate E.
  exists h. reflexivity.
Qed.

(** What [sign] returns under a symmetric algorithm and a [string | Buffer]
    key: the serialized token whose signature is the keyed hash. *)
Lemma sign_symmetric (now : Z) (P : Payload Any) (K : SecretOrPublicKey)
    (O : SignOptions.t Any) (h : Hash) :
  algorithm_of_name (algorithm_name O) = Some (HMAC h) ->
  sign now P (as_secret K) (Some O)
  = Returned (serialize
      (mkToken (issue_header O) (issue_body now P O)
         (Some (hmac h (key_bytes K) (issue_header O, issue_body now P O))))).
Proof.
  intros E. unfold sign.
  change (alg (issue_header (default SignOptions.empty (Some O))))
    with (algorithm_name O).
  rewrite E. destruct K as [s | b]; reflexivity.
Qed.

Lemma sign_returns (now : Z) (P : Payload Any) (secret : Secret)
    (O : SignOptions.t Any) (a : Algorithm) (s : option Buffer) :
  algorithm_of_name (algorithm_name O) = Some a ->
  make_signature a secret (issue_header O, issue_body now P O) = Some s ->
  sign now P secret (Some O)
  = Returned (serialize (mkToken (issue_header O) (issue_body now P O) s)).
Proof.
  intros Ea Es. unfold sign.
  change (alg (issue_header (default SignOptions.empty (Some O))))
    with (algorithm_name O).
  rewrite Ea.
  change (default SignOptions.empty (Some O)) with O.
  rewrite Es. reflexivity.
Qed.



(** ** Signing, then verifying *)

Section Issued.
Variables (signed_at verified_at : Z) (P : Payload Any) (O : SignOptions.t Any).
Variable sig : option Buffer.

Let t : Token Any := mkToken (issue_header O) (issue_body signed_at P O) sig.









End Issued.


(** ** Verifying with another key *)

(** A token whose signature does not match the supplied key is rejected with
    the base error, whatever its claims and whatever the options. *)
Lemma unmatched_signature_rejected (now : Z) (t : Token Any) (K' : SecretOrPublicKey)
    (o : VerifyOptions.t) :
  signature_matches t K' = false ->
  exists e, verify_token now t K' o = Thrown (IsJsonWebTokenError e).
Proof.
  intros Hsig. unfold verify_token, checks. cbn [first_failure].
  unfold check_algorithm, reject.
  destruct (accepts o (alg (header t))); [| eexists; reflexivity].
  unfold check_signature, reject. rewrite Hsig. eexists. reflexivity.
Qed.

(** C2, amended.  Whatever the payload, the key and the sign options, when
    the signature of the signed token does not match the key [K'] given to
    [verify], verification throws the base [JsonWebTokenError] (neither of
    its two specializations), whatever claims the token carries, whatever the
    clock and whatever the verify options. *)
Theorem verify_with_unmatched_key (signed_at verified_at : Z) (P : Payload Any)
    (secret : Secret) (K' : SecretOrPublicKey) (O : SignOptions.t Any) (a : Algorithm)
    (s : option Buffer) (options : option VerifyOptions.t) :
  algorithm_of_name (algorithm_name O) = Some a ->
  make_signature a secret (issue_header O, issue_body signed_at P O) = Some s ->
  signature_matches (mkToken (issue_header O) (issue_body signed_at P O) s) K'
  = false ->
  exists token e,
    sign signed_at P secret (Some O) = Returned token
    /\ verify verified_at token K' options = Thrown (IsJsonWebTokenError e).
Proof.
  intros Halg Hsig Hneq.
  destruct (unmatched_signature_rejected verified_at _ K'
              (default VerifyOptions.empty options) Hneq) as [e He].
  eexists. exists e. split; [apply (sign_returns _ _ _ _ a s Halg Hsig) |].
  rewrite verify_serialize. exact He.
Qed.

(** Under a symmetric algorithm the signature does not match a key whose
    keyed hash of the token differs from that of the signing key. *)
Lemma verify_with_other_shared_key (signed_at verified_at : Z) (P : Payload Any)
    (K K' : SecretOrPublicKey) (O : SignOptions.t Any) (h : Hash)
    (options : option VerifyOptions.t) :
  algorithm_of_name (algorithm_name O) = Some (HMAC h) ->
  hmac h (key_bytes K') (issue_header O, issue_body signed_at P O)
  <> hmac h (key_bytes K) (issue_header O, issue_body signed_at P O) ->
  exists token e,
    sign signed_at P (as_secret K) (Some O) = Returned token
    /\ verify verified_at token K' options = Thrown (IsJsonWebTokenError e).
Proof.
  intros Halg Hneq.
  destruct (unmatched_signature_rejected verified_at
              (mkToken (issue_header O) (issue_body signed_at P O)
                 (Some (hmac h (key_bytes K)
                          (issue_header O, issue_body signed_at P O))))
              K' (default VerifyOptions.empty options)) as [e He].
  - unfold signature_matches, signing_input. cbn [header body signature].
    change (alg (issue_header O)) with (algorithm_name O).
    rewrite Halg. apply bool_decide_eq_false_2. exact Hneq.
  - eexists. exists e. split; [apply (sign_symmetric _ _ _ _ h Halg) |].
    rewrite verify_serialize. exact He.
Qed.

(** A passphrase-protected key is no shared key: signing with one under a
    symmetric algorithm throws. *)
Lemma sign_symmetric_with_passphrase_key (now : Z) (P : Payload Any)
    (key passphrase : string) (O : SignOptions.t Any) :
  is_symmetric (algorithm_name O) = true ->
  exists e, sign now P (SecretKey key passphrase) (Some O) = Thrown e.
Proof.
  intros Hsym. destruct (symmetric_algorithm _ Hsym) as [h Halg].
  unfold sign.
  change (alg (issue_header (default SignOptions.empty (Some O))))
    with (algorithm_name O).
  rewrite Halg. eexists. reflexivity.
Qed.

(** ** Expiration *)







End Codec.

(* ===================================================================== *)
(** * The codec on the reference platform                                 *)
(* ===================================================================== *)

Section OnReference.
Import Jwt Reference.

Local Open Scope Z_scope.



(** C2, as stated, fails: under RS256 the token is signed with the private
    key and verified with the public key, which is another key, and
    verification returns the payload. *)
Lemma public_key_verifies :
  as_secret public <> private
  /\ exists token,
       sign 1000 session private (Some rs256_options) = Returned token
       /\ verify 1000 token public None
          = Returned (DecodedObject [("user", 7); ("admin", 0)]
                        (mkRegistered (Some 1000) None None None None None None)).
Proof.
  split; [discriminate |].
  eexists. split.
  - apply (sign_returns (platform := Reference.platform) 1000 session private
             rs256_options (Asymmetric RSASSA SHA256)); reflexivity.
  - rewrite verify_serialize. vm_compute. reflexivity.
Qed.

(** A token signed with one shared secret and verified with another. *)
Lemma verify_with_unmatched_key_on_reference :
  exists token e,
    sign 1000 session (as_secret shared) (Some hs256_options) = Returned token
    /\ verify (Any := Z) 5000 token another None = Thrown (IsJsonWebTokenError e).
Proof.
  apply (verify_with_unmatched_key (platform := Reference.platform)
           1000 5000 session (as_secret shared) another hs256_options
           (HMAC SHA256)
           (Some (hmac SHA256 (key_bytes shared)
                    (issue_header hs256_options,
                     issue_body 1000 session hs256_options)))
           None).
  - reflexivity.
  - reflexivity.
  - vm_compute. reflexivity.
Defined.



End OnReference.

(* ===================================================================== *)
(** * Properties of the font loader                                       *)
(* ===================================================================== *)

Section ShapeProperties.
Import Fonts.
Context {policy : MissingGlyphPolicy}.

Local Open Scope Z_scope.

Lemma mapped_glyph (d : GlyphData) (c : ascii) (g : Glyph) :
  lookup_glyph d c = Some g -> glyph_for d c = Some g.
Proof. unfold glyph_for. intros ->. reflexivity. Qed.

(** The shapes of a fully mapped text, read by index, from any start. *)
Lemma shapes_from_nth (d : GlyphData) (size : number) (text : string) :
  all_mapped d text = true ->
  forall (offset : number) (i : nat),
    nth_error (shapes_from d size offset text) i
    = match String.get i text with
      | Some c =>
          match lookup_glyph d c with
          | Some g => Some (place size (offset + size * advance_before d text i) g)
          | None => None
          end
      | None => None
      end.
Proof.
  induction text as [| c rest IH]; intros Hall offset i.
  - destruct i; reflexivity.
  - cbn [all_mapped] in Hall.
    destruct (lookup_glyph d c) as [g |] eqn:Hc; [| discriminate Hall].
    cbn [shapes_from]. rewrite (mapped_glyph _ _ _ Hc).
    destruct i as [| j].
    + cbn. rewrite Hc. do 2 f_equal. lia.
    + cbn [nth_error String.get advance_before]. rewrite Hc.
      rewrite (IH Hall).
      destruct (String.get j rest) as [c' |]; [| reflexivity].
      destruct (lookup_glyph d c') as [g' |]; [| reflexivity].
      do 2 f_equal. lia.
Qed.

Lemma shapes_from_length (d : GlyphData) (size : number) (text : string) :
  all_mapped d text = true ->
  forall offset : number,
    List.length (shapes_from d size offset text) = String.length text.
Proof.
  induction text as [| c rest IH]; intros Hall offset; [reflexivity |].
  cbn [all_mapped] in Hall.
  destruct (lookup_glyph d c) as [g |] eqn:Hc; [| discriminate Hall].
  cbn [shapes_from]. rewrite (mapped_glyph _ _ _ Hc).
  cbn [List.length String.length]. rewrite (IH Hall). reflexivity.
Qed.

(** C7, amended.  For every font and every text whose characters all have an
    entry in the font's glyph data, [generateShapes] emits one shape per
    character, in the order of the characters: the shape at index [i] is the
    outline of the [i]-th character, scaled to [size] and moved right by
    [size] times the advance of the characters before it. *)
Theorem one_shape_per_mapped_character (font : Font) (text : string)
    (size : number) :
  all_mapped (data font) text = true ->
  List.length (generateShapes font text size) = String.length text
  /\ forall i : nat,
       nth_error (generateShapes font text size) i
       = shape_of_character (data font) text size i.
Proof.
  intros Hall. split.
  - apply shapes_from_length. exact Hall.
  - intros i. unfold generateShapes, shape_of_character.
    rewrite (shapes_from_nth _ _ _ Hall).
    destruct (String.get i text) as [c |]; [| reflexivity].
    destruct (lookup_glyph (data font) c) as [g |]; [| reflexivity].
    unfold place. rewrite Z.add_0_l. reflexivity.
Qed.

(** The text "AB" at size 10, on a font that has both letters: two shapes,
    [A] at the origin and then [B] after the advance of [A]. *)
Lemma generateShapes_AB (font : Font) (a b : Glyph) :
  lookup_glyph (data font) "A"%char = Some a ->
  lookup_glyph (data font) "B"%char = Some b ->
  generateShapes font "AB" 10
  = [place 10 0 a; place 10 (10 * advance a) b].
Proof.
  intros Ha Hb. unfold generateShapes. cbn [shapes_from].
  rewrite (mapped_glyph _ _ _ Ha), (mapped_glyph _ _ _ Hb).
  rewrite Z.add_0_l. reflexivity.
Qed.

End ShapeProperties.

Section OnSampleFonts.
Import Fonts.

Local Open Scope Z_scope.

(** The text "AB" at size 10 on a font that has both letters. *)
Lemma one_shape_per_mapped_character_on_AB :
  List.length (generateShapes (policy := skip_missing) (new_Font letters_AB) "AB" 10)
  = String.length "AB"
  /\ forall i : nat,
       nth_error (generateShapes (policy := skip_missing) (new_Font letters_AB) "AB" 10) i
       = shape_of_character letters_AB "AB" 10 i.
Proof.
  apply (one_shape_per_mapped_character (policy := skip_missing)
           (new_Font letters_AB) "AB" 10).
  reflexivity.
Defined.

(** C7, as stated, fails: where the policy is to skip unmapped characters,
    the text "AB" on a font without [B] gives one shape, not two. *)
Lemma unmapped_character_gives_no_shape :
  generateShapes (policy := skip_missing) (new_Font letter_A) "AB" 10
  = [mkShape [(0, 0); (30, 80); (60, 0)]]
  /\ List.length (generateShapes (policy := skip_missing) (new_Font letter_A) "AB" 10)
     <> String.length "AB".
Proof. split; [reflexivity | discriminate]. Qed.

End OnSampleFonts.

(* ===================================================================== *)
(** * Properties of the rest of the declared surface                      *)
(* ===================================================================== *)

Section SurfaceProperties.
Import Decl Surface.

(** ** The option interfaces *)

(** X1.  Every member of [SignOptions], [VerifyOptions] and [DecodeOptions]
    is optional and admits [undefined], so none of the three interfaces has
    a required member; and each [options] parameter of the declared
    functions is one of the three: [SignOptions] for the forms of [sign],
    [VerifyOptions] for those of [verify], [DecodeOptions] for [decode]. *)
Theorem options_are_optional :
  Forall (fun i =>
            Forall (fun m => m_optional m = true /\ m_undefined m = true)
                   (i_members i)
            /\ required_members i = [])
         jwt_interfaces
  /\ Forall (fun f =>
               forall q, param_named "options" f = Some q ->
                 p_type q
                 = TRef (if String.eqb (f_name f) "decode" then "DecodeOptions"
                         else if String.prefix "sign" (f_name f) then "SignOptions"
                         else "VerifyOptions"))
            jwt_functions.
Proof.
  split.
  - repeat constructor.
  - repeat constructor; cbn; intros q E; try discriminate E;
      injection E as <-; reflexivity.
Qed.

(** X2.  The members [SignOptions] and [VerifyOptions] have in common are
    [audience], [subject], [issuer] and [jwtid]; for each of them every
    alternative of the type on the signing side is an alternative of the
    type on the verifying side, so a value given when signing can be given
    as the expectation when verifying.  The converse fails for [issuer]:
    [VerifyOptions] takes a list of issuers, [SignOptions] does not. *)
Theorem signed_values_are_expectations :
  shared_members SignOptions VerifyOptions
  = ["audience"; "subject"; "issuer"; "jwtid"]
  /\ Forall (fun n => exists s v,
               member_type n SignOptions = Some s
               /\ member_type n VerifyOptions = Some v
               /\ incl (alternatives s) (alternatives v))
            (shared_members SignOptions VerifyOptions)
  /\ (exists s v,
        member_type "issuer" SignOptions = Some s
        /\ member_type "issuer" VerifyOptions = Some v
        /\ In (TArray TString) (alternatives v)
        /\ ~ In (TArray TString) (alternatives s)).
Proof.
  assert (shared : shared_members SignOptions VerifyOptions
                   = ["audience"; "subject"; "issuer"; "jwtid"])
    by reflexivity.
  rewrite shared. split; [reflexivity |]. split.
  - repeat (apply List.Forall_cons;
              [ eexists; eexists;
                split; [reflexivity |]; split; [reflexivity |];
                intros t Ht; cbn in Ht |- *; tauto |]).
    apply List.Forall_nil.
  - eexists. eexists. split; [reflexivity |]. split; [reflexivity |].
    split; [cbn; right; left; reflexivity |].
    cbn. intros [E | []]. discriminate E.
Qed.

(** ** The callbacks *)

(** X3.  Every alternative of the [err] parameter of [VerifyCallback] is
    [JsonWebTokenError] or a declared class that inherits from it, and each
    of them has [Error] among its ancestors; the [err] parameter of
    [SignCallback] is the plain [Error], which is none of the declared
    classes. *)
Theorem callback_errors :
  (exists err decoded,
     assoc "VerifyCallback" type_aliases
     = Some (TFunction [("err", err); ("decoded", decoded)] TVoid)
     /\ Forall (fun t => exists c,
                  t = TRef c
                  /\ (c = "JsonWebTokenError"
                      \/ inherits_from jwt_classes "JsonWebTokenError" c = true)
                  /\ inherits_from jwt_classes "Error" c = true)
               (alternatives err))
  /\ (exists encoded,
        assoc "SignCallback" type_aliases
        = Some (TFunction [("err", TRef "Error"); ("encoded", encoded)] TVoid)
        /\ find_class "Error" jwt_classes = None).
Proof.
  split.
  - eexists. eexists. split; [reflexivity |].
    repeat constructor; eexists; (split; [reflexivity |]); split;
      solve [reflexivity | left; reflexivity | right; reflexivity].
  - eexists. split; reflexivity.
Qed.

(** ** The forms of [sign] and [verify] *)

(** X4.  The synchronous, callback and promise forms of [sign] take the same
    first two parameters, and so do those of [verify]; the promise form
    resolves with, and the callback receives as its second argument, the
    type the synchronous form returns; and a declared function returns
    [void] exactly when it has a [callback] parameter. *)
Theorem forms_agree :
  Forall (fun f => take 2 (f_params f) = take 2 (f_params sign_sync))
         (overloads "sign" jwt_functions ++ overloads "signAsync" jwt_functions)
  /\ Forall (fun f => take 2 (f_params f) = take 2 (f_params verify_sync))
            (overloads "verify" jwt_functions
             ++ overloads "verifyAsync" jwt_functions)
  /\ f_result signAsync = TPromise (f_result sign_sync)
  /\ f_result verifyAsync = TPromise (f_result verify_sync)
  /\ (exists err,
        assoc "SignCallback" type_aliases
        = Some (TFunction [("err", err); ("encoded", f_result sign_sync)] TVoid))
  /\ (exists err,
        assoc "VerifyCallback" type_aliases
        = Some (TFunction [("err", err); ("decoded", f_result verify_sync)] TVoid))
  /\ Forall (fun f => f_result f = TVoid <-> is_Some (param_named "callback" f))
            jwt_functions.
Proof.
  split; [repeat constructor |]. split; [repeat constructor |].
  split; [reflexivity |]. split; [reflexivity |].
  split; [eexists; reflexivity |]. split; [eexists; reflexivity |].
  repeat constructor; cbn;
    solve [ intros _; eexists; reflexivity
          | intros E; discriminate E
          | intros [q E]; discriminate E
          | reflexivity ].
Qed.

(** ** Argument counts *)

(** Where the optional parameters come last, the calls that fit are those
    with at least the required and at most all the parameters. *)
Lemma accepts_count_range (ps : list Param) :
  optional_last ps = true ->
  forall n : nat,
    accepts_count ps n = true
    <-> (required_count ps <= n /\ n <= List.length ps)%nat.
Proof.
  assert (all_optional : forall qs, List.forallb p_optional qs = true ->
                                    required_count qs = 0%nat).
  { induction qs as [| q rest IH]; [reflexivity |].
    cbn. unfold required_count. cbn. destruct (p_optional q); cbn; [| discriminate].
    exact IH. }
  assert (from_zero : forall qs, required_count qs = 0%nat ->
                                 List.forallb p_optional qs = true).
  { induction qs as [| q rest IH]; [reflexivity |].
    unfold required_count. cbn. destruct (p_optional q); cbn; [| discriminate].
    exact IH. }
  assert (suffix : forall qs, List.forallb p_optional qs = true ->
                              optional_last qs = true).
  { induction qs as [| q rest IH]; [reflexivity |].
    cbn. destruct (p_optional q); cbn; [intros E; exact E | discriminate]. }
  induction ps as [| q rest IH]; intros Hlast n.
  - destruct n; cbn; split; intros H; try lia; try reflexivity; discriminate.
  - destruct n as [| m].
    + cbn [accepts_count]. split.
      * intros H. rewrite (all_optional _ H). cbn. lia.
      * intros [H _]. apply from_zero. lia.
    + cbn [accepts_count]. cbn in Hlast.
      unfold required_count. cbn [List.filter List.length].
      destruct (p_optional q) eqn:Hq; cbn [negb List.length].
      * rewrite (IH (suffix _ Hlast)).
        fold (required_count rest). rewrite (all_optional _ Hlast). lia.
      * rewrite (IH Hlast). fold (required_count rest). lia.
Qed.

(** X5.  In every function, constructor and method of the two files the
    optional parameters come last.  A call fits some form of [sign], and
    likewise of [verify], exactly with two to four arguments; [signAsync]
    and [verifyAsync] with two or three; [decode] with one or two; the
    [FontLoader] constructor with none or one; the [Font] constructor and
    [parse] with exactly one, [generateShapes] with exactly two. *)
Theorem argument_counts (n : nat) :
  Forall (fun ps => optional_last ps = true) parameter_lists
  /\ (callable_with (overloads "sign" jwt_functions) n = true
      <-> (2 <= n <= 4)%nat)
  /\ (callable_with (overloads "verify" jwt_functions) n = true
      <-> (2 <= n <= 4)%nat)
  /\ (callable_with (overloads "signAsync" jwt_functions) n = true
      <-> (2 <= n <= 3)%nat)
  /\ (callable_with (overloads "verifyAsync" jwt_functions) n = true
      <-> (2 <= n <= 3)%nat)
  /\ (callable_with (overloads "decode" jwt_functions) n = true
      <-> (1 <= n <= 2)%nat)
  /\ (accepts_count (c_constructor FontLoader) n = true <-> (n <= 1)%nat)
  /\ (accepts_count (c_constructor Font) n = true <-> n = 1%nat)
  /\ (callable_with (methods_named "parse" FontLoader) n = true <-> n = 1%nat)
  /\ (callable_with (methods_named "generateShapes" Font) n = true
      <-> n = 2%nat).
Proof.
  split; [repeat constructor |].
  repeat lazymatch goal with
         | |- _ /\ _ => split
         end;
    (split;
     [ destruct n as [| [| [| [| [| n]]]]]; cbn; intros H;
       solve [lia | discriminate H]
     | intros H;
       assert (Hn : (n = 0 \/ n = 1 \/ n = 2 \/ n = 3 \/ n = 4)%nat) by lia;
       destruct Hn as [-> | [-> | [-> | [-> | ->]]]];
       solve [reflexivity | lia] ]).
Qed.

(** X6.  In both callback overloads of [verify] the callback is optional,
    and without it their parameters are, name for name and type for type,
    the leading parameters of the synchronous overload, which is declared
    before them, fits a call of that length and does not return [void].
    Only the last overload of [sign] and of [verify] fits four arguments,
    and it returns [void].  In [sign] the callback is required. *)
Theorem callback_omitted :
  overloads "verify" jwt_functions
  = verify_sync :: [verify_callback; verify_options_callback]
  /\ f_result verify_sync <> TVoid
  /\ Forall (fun f =>
               (exists q, param_named "callback" f = Some q
                          /\ p_optional q = true)
               /\ accepts_count (f_params verify_sync)
                    (List.length (without_callback f)) = true
               /\ List.map p_sig (without_callback f)
                  = List.map p_sig
                      (take (List.length (without_callback f))
                            (f_params verify_sync)))
            [verify_callback; verify_options_callback]
  /\ List.filter (fun f => accepts_count (f_params f) 4)
                 (overloads "verify" jwt_functions)
     = [verify_options_callback]
  /\ List.filter (fun f => accepts_count (f_params f) 4)
                 (overloads "sign" jwt_functions)
     = [sign_options_callback]
  /\ f_result verify_options_callback = TVoid
  /\ f_result sign_options_callback = TVoid
  /\ Forall (fun f =>
               forall q, param_named "callback" f = Some q ->
                         p_optional q = false)
            (overloads "sign" jwt_functions).
Proof.
  split; [reflexivity |]. split; [discriminate |].
  split.
  - repeat constructor; eexists; split; reflexivity.
  - repeat (split; [reflexivity |]).
    repeat constructor; cbn; intros q E; try discriminate E;
      injection E as <-; reflexivity.
Qed.

(** ** Results *)

(** X11.  [decode] is the only declared function whose result may be
    [null]: its result is [null], an object with a string index or a
    string, while no form of [sign] or [verify], synchronous or promise,
    has [null] among the alternatives of what it hands over; what the forms
    of [verify] hand over is an object or a string, and the forms of [sign]
    a string. *)
Theorem only_decode_may_be_null :
  Forall (fun f => In TNull (result_alternatives f) <-> f_name f = "decode")
         jwt_functions
  /\ result_alternatives decode = [TNull; TIndexSignature TAny; TString]
  /\ Forall (fun f => f_result f = TVoid
                      \/ result_alternatives f = [TObject; TString])
            (overloads "verify" jwt_functions
             ++ overloads "verifyAsync" jwt_functions)
  /\ Forall (fun f => f_result f = TVoid \/ result_alternatives f = [TString])
            (overloads "sign" jwt_functions
             ++ overloads "signAsync" jwt_functions).
Proof.
  split; [| split; [reflexivity | split]].
  - repeat (apply List.Forall_cons;
              [ cbn; split; intros H;
                solve [ reflexivity | discriminate H
                      | left; reflexivity
                      | intuition discriminate ] |]).
    apply List.Forall_nil.
  - repeat (apply List.Forall_cons;
              [solve [left; reflexivity | right; reflexivity] |]).
    apply List.Forall_nil.
  - repeat (apply List.Forall_cons;
              [solve [left; reflexivity | right; reflexivity] |]).
    apply List.Forall_nil.
Qed.

(** ** Names *)

Lemma mentions_In (names : list string) (n : string) :
  mentions names n = true <-> In n names.
Proof.
  unfold mentions. rewrite existsb_exists. split.
  - intros [m [Hm E]]. apply String.eqb_eq in E. subst m. exact Hm.
  - intros Hn. exists n. split; [exact Hn | apply String.eqb_refl].
Qed.

Lemma all_mentioned (refs names : list string) :
  List.forallb (mentions names) refs = true -> incl refs names.
Proof.
  intros H n Hn. apply mentions_In.
  rewrite forallb_forall in H. apply H. exact Hn.
Qed.

(** X7.  index.d.ts is closed: every type name its classes, interfaces,
    aliases and functions refer to is declared in the file, or is one of
    the built-in [Error], [Date] and [Promise] or the [Buffer] of the node
    typings it references; and every class, interface and alias it declares
    is referred to by one of its declarations. *)
Theorem index_is_closed :
  incl jwt_references (jwt_declared ++ jwt_ambient)
  /\ incl jwt_declared jwt_references.
Proof. split; apply all_mentioned; vm_compute; reflexivity. Qed.

(** X8.  FontLoader.d.ts refers, besides the two classes it declares, to
    exactly the three names it imports: every name referred to is imported
    or declared, and each of [Shape], [Loader] and [LoadingManager] is
    referred to. *)
Theorem font_imports_are_exact :
  incl font_references (font_imports ++ font_declared)
  /\ incl font_imports font_references.
Proof. split; apply all_mentioned; vm_compute; reflexivity. Qed.

(** ** Telling the errors apart *)

(** X10.  An error handed to a [VerifyCallback] is an instance of a class
    exactly when that class is its own or one of [JsonWebTokenError],
    [Error] and [Object] above it.  So every such error is an [Error] and a
    [JsonWebTokenError]; none is both a [TokenExpiredError] and a
    [NotBeforeError]; and an error constructed as the base class is neither
    of the two. *)
Theorem instanceof_tells_apart (e : Jwt.VerifyError) (C : string) :
  (Jwt.instanceof e C = true
   <-> (C = Jwt.class_of e \/ C = "JsonWebTokenError" \/ C = "Error"
        \/ C = "Object"))
  /\ ~ (Jwt.instanceof e "TokenExpiredError" = true
        /\ Jwt.instanceof e "NotBeforeError" = true)
  /\ (forall b, e = Jwt.IsJsonWebTokenError b ->
        Jwt.instanceof e "TokenExpiredError" = false
        /\ Jwt.instanceof e "NotBeforeError" = false).
Proof.
  split; [| split].
  - unfold Jwt.instanceof, inherits_from.
    destruct ancestors_of_jwt_classes as (A1 & A2 & A3).
    destruct e as [b | x | x]; cbn [Jwt.class_of];
      rewrite ?A1, ?A2, ?A3; cbn [existsb];
      repeat match goal with
             | |- context [String.eqb ?u ?v] => destruct (String.eqb_spec u v)
             end;
      cbn [orb]; split; intros H;
      solve [ reflexivity | discriminate H | intuition congruence ].
  - destruct e; cbn; intros [E1 E2]; discriminate.
  - intros b ->. split; reflexivity.
Qed.

End SurfaceProperties.
